(** * Specific record support (lang/py/src/avro/specific.py)

    A shallow embedding of the record-class generator: the metaclass
    [SpecificRecordMeta], the factory [specific_record], the base class
    [SpecificRecordBase] and the property accessors produced by
    [__wrap_property].

    Python objects that the module mutates are modelled by explicit state:
    an instance is the content of its [_fields] slot, a class is its
    attribute namespace, and schemas and classes live in a store addressed by
    references.  Attribute access follows the interpreter's rule for objects
    without an instance dictionary: the name is looked up on the type, first
    in the generated class, then in [SpecificRecordBase].  Of the names that
    only [object] and [type] define, the model covers those that decide
    whether a class can be built and instantiated and an attribute assigned
    ([setattr] on the class, [__new__], [__setattr__], [__class__]); the
    hooks of attribute reading are not modelled. *)

From stdpp Require Import base gmap strings list.

Set Warnings "-register-all".
Set Default Proof Using "Type".

(** ** Runtime values

    The datum values that can be stored in a record: the Python counterparts
    of the schema language's data. *)

Inductive value : Type :=
  | VNone
  | VBool (b : bool)
  | VInt (z : Z)
  | VStr (s : string)
  | VList (l : list value)
  | VDict (m : gmap string value).

(** References to heap objects (schemas, classes). *)
Abbreviation ref := nat.

Section Specific.

(** [avro.schema] and [avro.io] are imported, not defined, by the module:
    the type of schema types and the predicate [validate] are parameters. *)
Context {SchemaType : Type}.
Variable validate : SchemaType -> value -> bool.

(** ** Schema descriptors (consumed) *)

Record Field : Type := {
  name : string;
  type : SchemaType;
  doc : option (option string)
    (* [None]: the field object has no [doc] attribute;
       [Some None]: it has one, and its value is [None] *)
}.

Record Schema : Type := {
  schema_name : string;
  fullname : string;
  fields : list Field
}.

(** ** Exceptions *)

Inductive exn : Type :=
  | AvroTypeException (t : SchemaType) (v : value)
  | AttributeError (attr : string)
  | KeyError (key : string)
  | NameError (n : string)
  | TypeError
  | RuntimeError.

(** ** Classes

    The methods [SpecificRecordBase] defines, and what the namespace of a
    generated class can hold. *)

Inductive method : Type :=
  | m__init__ | m_validate | m_get_schema | m__getitem__ | m__setitem__
  | m_keys | m__eq__ | m__ne__.

Inductive attr : Type :=
  | AProperty (field : Field)   (* property(getter, setter, None, doc) *)
  | AMember                     (* descriptor of the slot '_fields' *)
  | AWeakref                    (* descriptor of the slot '__weakref__' *)
  | ASchema (r : ref)           (* the schema object, by reference *)
  | AConst (v : value).         (* plain data: __slots__, __module__, __doc__ *)

Record RecordType : Type := {
  cls_name : string;
  cls_dict : gmap string attr
}.

Definition SpecificRecordBase_dict (key : string) : option (attr + method) :=
  if decide (key = "__slots__") then Some (inl (AConst (VList [])))
  else if decide (key = "__module__") then Some (inl (AConst (VStr "avro.specific")))
  else if decide (key = "__doc__") then
    Some (inl (AConst (VStr "Base class for specific records.")))
  else if decide (key = "__init__") then Some (inr m__init__)
  else if decide (key = "validate") then Some (inr m_validate)
  else if decide (key = "get_schema") then Some (inr m_get_schema)
  else if decide (key = "__getitem__") then Some (inr m__getitem__)
  else if decide (key = "__setitem__") then Some (inr m__setitem__)
  else if decide (key = "keys") then Some (inr m_keys)
  else if decide (key = "__eq__") then Some (inr m__eq__)
  else if decide (key = "__ne__") then Some (inr m__ne__)
  else None.

(** Lookup along the method resolution order (class, SpecificRecordBase). *)
Definition mro_lookup (cls : RecordType) (key : string) : option (attr + method) :=
  match cls_dict cls !! key with
  | Some a => Some (inl a)
  | None => SpecificRecordBase_dict key
  end.

(** ** Instances and the interpreter store *)

Record Instance : Type := {
  inst_class : ref;              (* self.__class__ *)
  _fields : option value         (* the slot; [None] until first assigned *)
}.

Record Store : Type := {
  schemas : gmap ref Schema;
  classes : gmap ref RecordType
}.

(** What evaluating an attribute can yield. *)
Inductive pyobj : Type :=
  | OValue (v : value)
  | OSchema (r : ref)
  | OBound (m : method)          (* a bound method of [SpecificRecordBase] *)
  | ODescr (a : attr).           (* a descriptor read on the class itself *)

(** ** Computations on one instance: state and exceptions *)

Definition M (A : Type) : Type := Instance -> (exn + A) * Instance.

Definition ret {A} (a : A) : M A := fun self => (inr a, self).
Definition raise {A} (e : exn) : M A := fun self => (inl e, self).
Definition bind {A B} (c : M A) (k : A -> M B) : M B :=
  fun self =>
    match c self with
    | (inr a, self') => k a self'
    | (inl e, self') => (inl e, self')
    end.
Definition lift {A} (r : exn + A) : M A := fun self => (r, self).

Notation "'do' x <- c ; k" := (bind c (fun x => k))
  (at level 10, x name, c at level 100, k at level 200).

Definition read_slot : M pyobj := fun self =>
  match _fields self with
  | Some v => (inr (OValue v), self)
  | None => (inl (AttributeError "_fields"), self)
  end.

Definition write_slot (v : value) : M unit := fun self =>
  (inr tt, {| inst_class := inst_class self; _fields := Some v |}).

(** ** SpecificRecordMeta.__wrap_property *)

(** The documentation of the property.  [property] is built after the
    getter has received its docstring, and takes that docstring when the
    [doc] it is given is [None]. *)
Definition property_doc (field : Field) : string :=
  match doc field with
  | Some (Some d) => d
  | Some None => "Getter for the " +:+ name field +:+ " field"
  | None => "Generated property for the " +:+ name field +:+ " field"
  end.

(** Reading a non-property attribute found on the type through an instance. *)
Definition read_plain (a : attr + method) : M pyobj :=
  match a with
  | inl AMember => read_slot
  | inl AWeakref => ret (OValue VNone)
  | inl (ASchema r) => ret (OSchema r)
  | inl (AConst v) => ret (OValue v)
  | inl (AProperty f) => ret (ODescr (AProperty f))
  | inr m => ret (OBound m)
  end.

(** The expression [self._fields].  When a property is bound under that name
    its getter evaluates [self._fields] again, without end: the interpreter
    stops it with a RuntimeError (recursion depth). *)
Definition self__fields (cls : RecordType) : M pyobj :=
  match mro_lookup cls "_fields" with
  | Some (inl (AProperty _)) => raise RuntimeError
  | Some a => read_plain a
  | None => raise (AttributeError "_fields")
  end.

(** [o.get(key)] *)
Definition obj_get (o : pyobj) (key : string) : exn + value :=
  match o with
  | OValue (VDict m) => inr (default VNone (m !! key))
  | _ => inl (AttributeError "get")
  end.

(** [o[key] = v], for the object held by the slot. *)
Definition obj_setitem (o : pyobj) (key : string) (v : value) : M unit :=
  match o with
  | OValue (VDict m) => write_slot (VDict (<[key := v]> m))
  | _ => raise TypeError
  end.

Definition getter (cls : RecordType) (field : Field) : M value :=
  do o <- self__fields cls;
  lift (obj_get o (name field)).

Definition setter (cls : RecordType) (field : Field) (v : value) : M unit :=
  let field_type := type field in
  if validate field_type v then
    do o <- self__fields cls;
    obj_setitem o (name field) v
  else raise (AvroTypeException field_type v).

Definition wrap_property (field : Field) : attr := AProperty field.

(** ** SpecificRecordMeta.__new__ and __init__ *)

(** Writing the namespace of a class object. *)
Definition namespace_set (cls : RecordType) (key : string) (a : attr) : RecordType :=
  {| cls_name := cls_name cls; cls_dict := <[key := a]> (cls_dict cls) |}.

(** Names that [type] and [object] own as data descriptors and that the
    metaclass does not define itself: for them [setattr] on a class runs the
    descriptor's setter instead of writing the namespace.  [__dict__] has no
    setter; the read-only members, and the setters of [__name__],
    [__bases__] and [__class__] handed a property object, raise TypeError. *)
Definition type_setattr_error (key : string) : option exn :=
  if decide (key = "__dict__") then Some (AttributeError "__dict__")
  else if decide (key ∈ ["__name__"; "__bases__"; "__class__"; "__mro__";
                         "__base__"; "__basicsize__"; "__itemsize__";
                         "__flags__"; "__dictoffset__"; "__weakrefoffset__"])
  then Some TypeError
  else None.

(** [setattr(cls, attr, v)] on a class object. *)
Definition type_setattr (cls : RecordType) (key : string) (a : attr)
  : exn + RecordType :=
  match type_setattr_error key with
  | Some e => inl e
  | None => inr (namespace_set cls key a)
  end.

(** [__new__]: the dictionary [d] is emptied and refilled; [type.__new__]
    adds the slot descriptors, [__module__] and [__doc__]. *)
Definition SpecificRecordMeta__new__ (nm : string) (schema : ref) : RecordType :=
  {| cls_name := nm;
     cls_dict :=
       <["_schema" := ASchema schema]>
       (<["__slots__" := AConst (VList [VStr "_fields"; VStr "__weakref__"])]>
       (<["_fields" := AMember]>
       (<["__weakref__" := AWeakref]>
       (<["__module__" := AConst (VStr "avro.specific")]>
       (<["__doc__" := AConst VNone]> ∅))))) |}.

(** The loop of [__init__].  [cls.__wrap_property] is looked up on the class
    under its mangled name: an attribute of that name in the class itself
    hides the metaclass method, and a property object cannot be called. *)
Fixpoint bind_properties (fs : list Field) (cls : RecordType) : exn + RecordType :=
  match fs with
  | [] => inr cls
  | field :: rest =>
      match mro_lookup cls "_SpecificRecordMeta__wrap_property" with
      | Some _ => inl TypeError
      | None =>
          let attr := name field in
          let wrapped := wrap_property field in
          match type_setattr cls attr wrapped with
          | inl e => inl e
          | inr cls' => bind_properties rest cls'
          end
      end
  end.

(** [d['_schema'].fields] reads the dictionary [d], not the class, so the loop
    runs over the schema's fields whatever has been bound meanwhile. *)
Definition SpecificRecordMeta__init__ (sch : Schema) (cls : RecordType)
  : exn + RecordType :=
  match bind_properties (fields sch) cls with
  | inr cls' => type_setattr cls' "__module__" (AConst VNone)
  | inl e => inl e
  end.

(** ** specific_record

    The class object is allocated at a fresh reference; nothing else in the
    store is written.  A class whose initialisation raised is unreachable and
    is not recorded.  A reference to no schema stands for an object without
    the attributes of a schema. *)
Definition specific_record (rec_schema : ref) (st : Store) : (exn + ref) * Store :=
  match schemas st !! rec_schema with
  | None => (inl (AttributeError "fullname"), st)
  | Some sch =>
      let cls := SpecificRecordMeta__new__ (fullname sch) rec_schema in
      match SpecificRecordMeta__init__ sch cls with
      | inl e => (inl e, st)
      | inr cls' =>
          let c := fresh (dom (classes st)) in
          (inr c, {| schemas := schemas st; classes := <[c := cls']> (classes st) |})
      end
  end.

(** ** Attribute access on instances *)

(** [getattr(self, key)] *)
Definition inst_getattr (cls : RecordType) (key : string) : M pyobj :=
  match mro_lookup cls key with
  | Some (inl (AProperty field)) => do v <- getter cls field; ret (OValue v)
  | Some a => read_plain a
  | None => raise (AttributeError key)
  end.

(** [setattr(self, key, value)]: a property runs its setter, the slot
    descriptor stores the value; every other name is read-only or unknown,
    since instances have no dictionary.  Of the names [object] alone
    defines, [__class__] has a setter: it takes classes only, and no datum
    is one. *)
Definition inst_setattr (cls : RecordType) (key : string) (v : value) : M unit :=
  match mro_lookup cls key with
  | Some (inl (AProperty field)) => setter cls field v
  | Some (inl AMember) => write_slot v
  | Some _ => raise (AttributeError key)
  | None =>
      if decide (key = "__class__") then raise TypeError
      else raise (AttributeError key)
  end.

(** ** SpecificRecordBase *)

Definition SpecificRecordBase__init__ (cls : RecordType) : M unit :=
  inst_setattr cls "_fields" (VDict ∅).

(** Instantiation [cls()].  The [__new__] found on the class makes the
    object: unless a field took the name, it is [object]'s, which returns an
    object with unassigned slots; a property in its place cannot be called.
    Then the [__init__] found on the type runs; a property bound under
    [__init__] is evaluated (its getter runs) and the value it yields is not
    callable.  The assignment in [__init__] goes through the [__setattr__]
    found on the type, and a property bound there is evaluated likewise.  An
    instance exists only if all this passed, so later assignments do not
    look [__setattr__] up again. *)
Definition new_instance (c : ref) (cls : RecordType) : (exn + unit) * Instance :=
  let self := {| inst_class := c; _fields := None |} in
  match mro_lookup cls "__new__" with
  | Some _ => (inl TypeError, self)
  | None =>
      match mro_lookup cls "__init__" with
      | Some (inr m__init__) =>
          match mro_lookup cls "__setattr__" with
          | Some (inl (AProperty field)) =>
              (do _ <- getter cls field; raise TypeError) self
          | Some _ => (inl TypeError, self)
          | None => SpecificRecordBase__init__ cls self
          end
      | Some (inl (AProperty field)) =>
          (do _ <- getter cls field; raise TypeError) self
      | Some _ => (inl TypeError, self)
      | None => (inr tt, self)
      end
  end.

(** [cls.get_schema()]: [getattr(cls, '_schema')], read on the class. *)
Definition class_read (a : attr + method) : pyobj :=
  match a with
  | inl (ASchema r) => OSchema r
  | inl (AConst v) => OValue v
  | inl a => ODescr a
  | inr m => OBound m
  end.

Definition get_schema (cls : RecordType) : exn + pyobj :=
  match mro_lookup cls "get_schema" with
  | Some (inr m_get_schema) =>
      match mro_lookup cls "_schema" with
      | Some a => inr (class_read a)
      | None => inl (AttributeError "_schema")
      end
  | Some _ => inl TypeError
  | None => inl (AttributeError "get_schema")
  end.

(** [o.fields] *)
Definition obj_fields (st : Store) (o : pyobj) : exn + list Field :=
  match o with
  | OSchema r =>
      match schemas st !! r with
      | Some sch => inr (fields sch)
      | None => inl (AttributeError "fields")
      end
  | _ => inl (AttributeError "fields")
  end.

(** What [validate] may be handed as [instance]: a record, given with its
    class, or a plain datum such as a dict. *)
Inductive argument : Type :=
  | ARecord (icls : RecordType) (self : Instance)
  | ADatum (d : value).

(** [instance.get(field_name)].  On a record the attribute [get] is looked
    up as any other: neither [SpecificRecordBase] nor the generated class
    defines it; only a schema field of that name can provide it, and then
    its value is not callable.  Nothing here writes the instance. *)
Definition instance_get (instance : argument) (field_name : string)
  : exn + value :=
  match instance with
  | ARecord icls self =>
      fst ((do _ <- inst_getattr icls "get"; raise TypeError) self)
  | ADatum d => obj_get (OValue d) field_name
  end.

Fixpoint validate_loop (fs : list Field) (instance : argument) : exn + unit :=
  match fs with
  | [] => inr tt
  | field :: rest =>
      let field_name := name field in
      match instance_get instance field_name with
      | inl e => inl e
      | inr v =>
          if validate (type field) v then validate_loop rest instance
          else inl (AvroTypeException (type field) v)
      end
  end.

Definition SpecificRecordBase_validate (st : Store) (cls : RecordType)
    (instance : argument) : exn + unit :=
  match get_schema cls with
  | inl e => inl e
  | inr o =>
      match obj_fields st o with
      | inl e => inl e
      | inr fs => validate_loop fs instance
      end
  end.

(** [self._fields.__getitem__(key)] *)
Definition obj_getitem (o : pyobj) (key : string) : exn + value :=
  match o with
  | OValue (VDict m) =>
      match m !! key with
      | Some v => inr v
      | None => inl (KeyError key)
      end
  | OValue (VList _) | OValue (VStr _) => inl TypeError
  | _ => inl (AttributeError "__getitem__")
  end.

Definition SpecificRecordBase__getitem__ (cls : RecordType) (key : string) : M value :=
  do o <- self__fields cls;
  lift (obj_getitem o key).

Definition SpecificRecordBase__setitem__ (cls : RecordType) (key : string)
    (v : value) : M unit :=
  inst_setattr cls key v.

(** [self._fields.keys()] *)
Definition obj_keys (o : pyobj) : exn + list string :=
  match o with
  | OValue (VDict m) => inr (elements (dom m))
  | _ => inl (AttributeError "keys")
  end.

Definition SpecificRecordBase_keys (cls : RecordType) : M (list string) :=
  do o <- self__fields cls;
  lift (obj_keys o).

(** [__eq__]: no object the slot can hold has an attribute [eq], and the
    name [false] is bound nowhere in the module. *)
Definition SpecificRecordBase__eq__ (cls : RecordType) (other : Instance) : M bool :=
  fun self =>
    if decide (inst_class other = inst_class self) then
      (do _ <- self__fields cls; raise (AttributeError "eq")) self
    else (inl (NameError "false"), self).



(** ** Vocabulary of the statements *)

(** The class binds the accessor pair generated for [f] under [f]'s name. *)
Definition is_field (cls : RecordType) (f : Field) : Prop :=
  cls_dict cls !! name f = Some (AProperty f).

(** [self] is a record instance of [cls] whose field mapping is [m]: the
    slot descriptor is the one [__new__] created and the slot holds [m]. *)
Definition record_instance (cls : RecordType) (self : Instance)
    (m : gmap string value) : Prop :=
  cls_dict cls !! "_fields" = Some AMember ∧ _fields self = Some (VDict m).

(** [self] once [v] is stored under [key] in its mapping [m]. *)
Definition stored (self : Instance) (key : string) (v : value)
    (m : gmap string value) : Instance :=
  {| inst_class := inst_class self; _fields := Some (VDict (<[key := v]> m)) |}.

(** The field whose accessor ends up bound under [key]: the last one
    declared with that name. *)
Definition bound_field (fs : list Field) (key : string) : option Field :=
  last (filter (fun f => name f = key) fs).

(** [cls] is the class the metaclass produces for the schema [sch] held at
    reference [r]. *)
Definition generated (sch : Schema) (r : ref) (cls : RecordType) : Prop :=
  SpecificRecordMeta__init__ sch (SpecificRecordMeta__new__ (fullname sch) r)
    = inr cls.

(** The mapping operations of [SpecificRecordBase] as a small command
    language, run in sequence on one instance.  An exception ends the
    operation that raised it, not the sequence. *)
Inductive op : Type :=
  | Get (key : string)
  | Set_ (key : string) (v : value)
  | Keys.

Definition exec (cls : RecordType) (o : op) (self : Instance) : Instance :=
  match o with
  | Get key => snd (SpecificRecordBase__getitem__ cls key self)
  | Set_ key v => snd (SpecificRecordBase__setitem__ cls key v self)
  | Keys => snd (SpecificRecordBase_keys cls self)
  end.

Definition run (cls : RecordType) (ops : list op) (self : Instance) : Instance :=
  foldl (fun s o => exec cls o s) self ops.




(** Names beginning with two underscores: the names Python keeps for the
    attributes of the interpreter's own object model all do. *)
Definition dunder (key : string) : bool := String.prefix "__" key.

(** Names the generated class needs for itself: a schema field so named
    replaces the class attribute, or is replaced by it. *)
Definition clobbering : list string :=
  ["_schema"; "get_schema"; "__module__"; "_SpecificRecordMeta__wrap_property"].

End Specific.

Arguments Field : clear implicits.
Arguments Schema : clear implicits.

(** ** A concrete validation contract and the module's TEST_SCHEMA *)

Inductive prim : Type := p_null | p_int | p_long | p_string.

(** Modelled from the spec: [validate(type, value)] of [avro.io] is imported
    by the module and absent from it; this is the predicate on the primitive
    types used in the examples (null, 32-bit int, 64-bit long, string). *)
Definition prim_validate (t : prim) (v : value) : bool :=
  match t, v with
  | p_null, VNone => true
  | p_int, VInt z => bool_decide (-2147483648 ≤ z ≤ 2147483647)%Z
  | p_long, VInt z => bool_decide (-9223372036854775808 ≤ z ≤ 9223372036854775807)%Z
  | p_string, VStr _ => true
  | _, _ => false
  end.

Definition TEST_SCHEMA : Schema prim :=
  {| schema_name := "fooRecord"; fullname := "fooRecord";
     fields := [ {| name := "f1"; type := p_int; doc := None |};
                 {| name := "f2"; type := p_long; doc := None |} ] |}.

(** A store holding only the parsed TEST_SCHEMA, at reference 0. *)
Definition test_store : Store :=
  {| schemas := {[ 0 := TEST_SCHEMA ]}; classes := ∅ |}.

(** The class [specific_record] builds from it, as in the module's main. *)
Definition FooRecord : RecordType :=
  match SpecificRecordMeta__init__ TEST_SCHEMA
          (SpecificRecordMeta__new__ "fooRecord" 0) with
  | inr cls => cls
  | inl _ => SpecificRecordMeta__new__ "fooRecord" 0
  end.

Definition foo_instance : Instance :=
  snd (new_instance prim_validate 0 FooRecord).

Definition f1 : Field prim := {| name := "f1"; type := p_int; doc := None |}.

(** The instance after [instance.f1 = 1], the first statement of the main. *)
Definition foo_written : Instance :=
  snd (inst_setattr prim_validate FooRecord "f1" (VInt 1) foo_instance).





(** A schema one of whose fields is called [_schema]. *)
Definition SHADOW_SCHEMA : Schema prim :=
  {| schema_name := "shadow"; fullname := "shadow";
     fields := [ {| name := "_schema"; type := p_int; doc := None |} ] |}.

Definition shadow_store : Store :=
  {| schemas := {[ 0 := SHADOW_SCHEMA ]}; classes := ∅ |}.

Definition f2 : Field prim := {| name := "f2"; type := p_long; doc := None |}.



(** A schema whose first field has the mangled name of the metaclass's
    wrapping method. *)
Definition WRAP_SCHEMA : Schema prim :=
  {| schema_name := "wrap"; fullname := "wrap";
     fields := [ {| name := "_SpecificRecordMeta__wrap_property";
                    type := p_int; doc := None |}; f1 ] |}.

Definition wrap_store : Store :=
  {| schemas := {[ 0 := WRAP_SCHEMA ]}; classes := ∅ |}.

(** A schema without fields. *)
Definition EMPTY_SCHEMA : Schema prim :=
  {| schema_name := "empty"; fullname := "empty"; fields := [] |}.

Definition empty_store : Store :=
  {| schemas := {[ 0 := EMPTY_SCHEMA ]}; classes := ∅ |}.

Definition EmptyRecord : RecordType :=
  match SpecificRecordMeta__init__ EMPTY_SCHEMA
          (SpecificRecordMeta__new__ "empty" 0) with
  | inr cls => cls
  | inl _ => SpecificRecordMeta__new__ "empty" 0
  end.

(** Schemas with a field named after an attribute of the interpreter's
    object model. *)
Definition DICT_SCHEMA : Schema prim :=
  {| schema_name := "d"; fullname := "d";
     fields := [ {| name := "__dict__"; type := p_int; doc := None |} ] |}.

Definition dict_store : Store :=
  {| schemas := {[ 0 := DICT_SCHEMA ]}; classes := ∅ |}.

Definition NEW_SCHEMA : Schema prim :=
  {| schema_name := "n"; fullname := "n";
     fields := [ {| name := "__new__"; type := p_int; doc := None |} ] |}.

Definition NewRecord : RecordType :=
  match SpecificRecordMeta__init__ NEW_SCHEMA
          (SpecificRecordMeta__new__ "n" 0) with
  | inr cls => cls
  | inl _ => SpecificRecordMeta__new__ "n" 0
  end.

Definition SETATTR_SCHEMA : Schema prim :=
  {| schema_name := "s"; fullname := "s";
     fields := [ {| name := "__setattr__"; type := p_int; doc := None |} ] |}.

Definition SetattrRecord : RecordType :=
  match SpecificRecordMeta__init__ SETATTR_SCHEMA
          (SpecificRecordMeta__new__ "s" 0) with
  | inr cls => cls
  | inl _ => SpecificRecordMeta__new__ "s" 0
  end.

(** A schema that declares the name [f1] twice, with different types. *)
Definition DUP_SCHEMA : Schema prim :=
  {| schema_name := "dup"; fullname := "dup";
     fields := [ f1; {| name := "f1"; type := p_string; doc := None |} ] |}.

Definition DupRecord : RecordType :=
  match SpecificRecordMeta__init__ DUP_SCHEMA
          (SpecificRecordMeta__new__ "dup" 0) with
  | inr cls => cls
  | inl _ => SpecificRecordMeta__new__ "dup" 0
  end.

(** * Properties *)

Section Properties.

Context {SchemaType : Type}.
Variable validate : SchemaType -> value -> bool.

Implicit Types (cls : RecordType (SchemaType := SchemaType)).
Implicit Types (f : Field SchemaType) (v : value) (self : Instance).
Implicit Types (m : gmap string value) (key : string).

(** ** Attribute resolution *)

Lemma mro_lookup_own cls key (a : attr) :
  cls_dict cls !! key = Some a -> mro_lookup cls key = Some (inl a).
Proof. intros H. unfold mro_lookup. by rewrite H. Qed.

Lemma base_dict_data key (a : attr (SchemaType := SchemaType)) :
  SpecificRecordBase_dict key = Some (inl a) -> ∃ v, a = AConst v.
Proof.
  unfold SpecificRecordBase_dict. intros H.
  repeat (case_decide; [by (inversion H; eauto)|]). done.
Qed.

Lemma self__fields_record cls self m :
  record_instance cls self m ->
  self__fields cls self = (inr (OValue (VDict m)), self).
Proof.
  intros [Hslot Hm]. unfold self__fields.
  rewrite (mro_lookup_own _ _ _ Hslot). simpl.
  unfold read_slot. by rewrite Hm.
Qed.

Lemma is_field_not_slot cls self m f :
  record_instance cls self m -> is_field cls f -> name f ≠ "_fields".
Proof.
  intros [Hslot _] Hf Heq. unfold is_field in Hf.
  rewrite Heq in Hf. congruence.
Qed.

(** ** The accessors on a record instance *)


Lemma setter_accept cls self m f v :
  record_instance cls self m -> validate (type f) v = true ->
  setter validate cls f v self = (inr tt, stored self (name f) v m).
Proof.
  intros Hri Hv. unfold setter. rewrite Hv. unfold bind.
  by rewrite (self__fields_record _ _ _ Hri).
Qed.

Lemma setter_reject cls self f v :
  validate (type f) v = false ->
  setter validate cls f v self = (inl (AvroTypeException (type f) v), self).
Proof. intros Hv. unfold setter. by rewrite Hv. Qed.

Lemma stored_record cls self m key v :
  record_instance cls self m ->
  record_instance cls (stored self key v m) (<[key := v]> m).
Proof. intros [Hslot _]. by split. Qed.

Lemma inst_setattr_field cls f v :
  is_field cls f -> inst_setattr validate cls (name f) v = setter validate cls f v.
Proof.
  intros Hf. unfold inst_setattr. by rewrite (mro_lookup_own _ _ _ Hf).
Qed.




Lemma getitem_record cls self m key :
  record_instance cls self m ->
  SpecificRecordBase__getitem__ cls key self =
    (match m !! key with
     | Some v => inr v
     | None => inl (KeyError key)
     end, self).
Proof.
  intros Hri. unfold SpecificRecordBase__getitem__, bind.
  rewrite (self__fields_record _ _ _ Hri). simpl. unfold lift.
  by destruct (m !! key).
Qed.

Lemma keys_record cls self m :
  record_instance cls self m ->
  SpecificRecordBase_keys cls self = (inr (elements (dom m)), self).
Proof.
  intros Hri. unfold SpecificRecordBase_keys, bind.
  by rewrite (self__fields_record _ _ _ Hri).
Qed.


(** C2. When [validate] rejects [v] for the type of a field [f] of the class,
    assigning [v] to the attribute [f.name] raises
    [AvroTypeException(f.type, v)] and the instance is exactly what it was:
    the slot, hence every entry of the mapping, is untouched. *)
Theorem set_invalid_raises_unchanged cls self f v :
  is_field cls f ->
  validate (type f) v = false ->
  inst_setattr validate cls (name f) v self
    = (inl (AvroTypeException (type f) v), self).
Proof.
  intros Hf Hv. rewrite (inst_setattr_field _ _ _ Hf). by apply setter_reject.
Qed.



(** ** Bulk validation and equality *)



(** An instance of a record never has a callable [get]. *)
Lemma instance_get_record_raises cls self key :
  ∃ e, instance_get (ARecord cls self) key = inl e.
Proof.
  unfold instance_get, bind.
  destruct (inst_getattr cls "get" self) as [[e|o] s]; by eexists.
Qed.

(** On a dict the loop does what its author meant: fields are checked in
    declaration order, a missing key counts as [None], and the first field
    whose value is rejected is the one reported. *)
Lemma validate_loop_dict_first_invalid
    (pre post : list (Field SchemaType)) f m :
  Forall (fun g => validate (type g) (default VNone (m !! name g)) = true) pre ->
  validate (type f) (default VNone (m !! name f)) = false ->
  validate_loop validate (pre ++ f :: post) (ADatum (VDict m))
    = inl (AvroTypeException (type f) (default VNone (m !! name f))).
Proof.
  intros Hpre Hf. induction Hpre as [|g pre Hg _ IH]; simpl.
  - by rewrite Hf.
  - by rewrite Hg.
Qed.

Lemma validate_loop_dict_all_valid (fs : list (Field SchemaType)) m :
  Forall (fun g => validate (type g) (default VNone (m !! name g)) = true) fs ->
  validate_loop validate fs (ADatum (VDict m)) = inr tt.
Proof.
  intros Hfs. induction Hfs as [|g fs Hg _ IH]; simpl; [done|].
  by rewrite Hg.
Qed.

(** X15.  [__eq__] never returns: whatever the two instances and their class, the
    comparison ends in an exception (the lookup of [eq] on the mapping, or of
    the unbound name [false]). *)
Lemma eq_never_returns cls self (other : Instance) :
  ∃ e, fst (SpecificRecordBase__eq__ cls other self) = inl e.
Proof.
  unfold SpecificRecordBase__eq__.
  destruct (decide (inst_class other = inst_class self)) as [_|_]; [|by eexists].
  unfold bind. destruct (self__fields cls self) as [[e'|o] s]; by eexists.
Qed.

(** ** The generated class *)

Lemma bound_field_cons f (fs : list (Field SchemaType)) key :
  bound_field (f :: fs) key =
    match bound_field fs key with
    | Some g => Some g
    | None => if decide (name f = key) then Some f else None
    end.
Proof.
  unfold bound_field. rewrite filter_cons.
  destruct (decide (name f = key)) as [Heq|Hne].
  - by rewrite last_cons.
  - by destruct (last _).
Qed.

Lemma bound_field_Some (fs : list (Field SchemaType)) key f :
  bound_field fs key = Some f -> f ∈ fs ∧ name f = key.
Proof.
  unfold bound_field. intros H%last_Some_elem_of.
  apply list_elem_of_filter in H. tauto.
Qed.

Lemma bound_field_None (fs : list (Field SchemaType)) key :
  bound_field fs key = None <-> key ∉ name <$> fs.
Proof.
  unfold bound_field. rewrite last_None. split.
  - intros Hnil (f & -> & Hin)%list_elem_of_fmap.
    assert (f ∈ filter (fun g => name g = name f) fs) as Hf
      by (by apply list_elem_of_filter).
    rewrite Hnil in Hf. by apply not_elem_of_nil in Hf.
  - intros Hnot. destruct (filter _ fs) as [|g l] eqn:Hfl; [done|].
    assert (g ∈ filter (fun g => name g = key) fs) as Hg
      by (rewrite Hfl; left).
    apply list_elem_of_filter in Hg as [<- Hin].
    exfalso. apply Hnot. apply list_elem_of_fmap. by exists g.
Qed.

(** With pairwise distinct names every declared field is the bound one. *)
Lemma bound_field_NoDup (fs : list (Field SchemaType)) f :
  NoDup (name <$> fs) -> f ∈ fs -> bound_field fs (name f) = Some f.
Proof.
  induction fs as [|g fs IH]; intros Hnd Hin; [by apply not_elem_of_nil in Hin|].
  rewrite fmap_cons in Hnd. apply NoDup_cons in Hnd as [Hg Hnd].
  rewrite bound_field_cons. apply elem_of_cons in Hin as [->|Hin].
  - apply bound_field_None in Hg. rewrite Hg. by rewrite decide_True.
  - by rewrite (IH Hnd Hin).
Qed.

Lemma type_setattr_inr cls cls' key (a : attr) :
  type_setattr cls key a = inr cls' -> cls' = namespace_set cls key a.
Proof.
  unfold type_setattr. destruct (type_setattr_error key); [done|].
  by intros [= <-].
Qed.

Lemma type_setattr_error_dunder key (e : exn (SchemaType := SchemaType)) :
  type_setattr_error key = Some e -> dunder key = true.
Proof.
  unfold type_setattr_error. case_decide as Hd; [by subst key|].
  case_decide as Hl; [|done]. intros _.
  repeat (apply elem_of_cons in Hl as [->|Hl]; [done|]).
  by apply elem_of_nil in Hl.
Qed.

Lemma type_setattr_plain cls key (a : attr) :
  dunder key = false ->
  type_setattr cls key a = inr (namespace_set cls key a).
Proof.
  intros Hd. unfold type_setattr.
  destruct (type_setattr_error key) as [e|] eqn:He; [|done].
  apply type_setattr_error_dunder in He. congruence.
Qed.

(** The namespace after the loop of [__init__]: each name is bound to the
    accessor of the last field declared under it, and is otherwise as
    [__new__] left it. *)
Lemma bind_properties_lookup (fs : list (Field SchemaType)) cls cls' key :
  bind_properties fs cls = inr cls' ->
  cls_dict cls' !! key =
    match bound_field fs key with
    | Some f => Some (AProperty f)
    | None => cls_dict cls !! key
    end.
Proof.
  revert cls. induction fs as [|f fs IH]; intros cls Hb; simpl in Hb.
  - by inversion Hb.
  - destruct (mro_lookup cls _); [done|].
    destruct (type_setattr cls _ _) as [e|cls0] eqn:Hs; [done|].
    apply type_setattr_inr in Hs. subst cls0.
    rewrite (IH _ Hb), bound_field_cons.
    destruct (bound_field fs key); [done|]. simpl.
    destruct (decide (name f = key)) as [->|Hne].
    + by rewrite lookup_insert_eq.
    + by rewrite lookup_insert_ne.
Qed.

Lemma bind_properties_name (fs : list (Field SchemaType)) cls cls' :
  bind_properties fs cls = inr cls' -> cls_name cls' = cls_name cls.
Proof.
  revert cls. induction fs as [|f fs IH]; intros cls Hb; simpl in Hb.
  - by inversion Hb.
  - destruct (mro_lookup cls _); [done|].
    destruct (type_setattr cls _ _) as [e|cls0] eqn:Hs; [done|].
    apply type_setattr_inr in Hs. subst cls0. by rewrite (IH _ Hb).
Qed.

Lemma bind_properties_succeeds (fs : list (Field SchemaType)) cls :
  mro_lookup cls "_SpecificRecordMeta__wrap_property" = None ->
  "_SpecificRecordMeta__wrap_property" ∉ name <$> fs ->
  Forall (fun f => dunder (name f) = false) fs ->
  ∃ cls', bind_properties fs cls = inr cls'.
Proof.
  revert cls. induction fs as [|f fs IH]; intros cls Hcls Hfs Hd; simpl.
  - by eexists.
  - rewrite Hcls. rewrite fmap_cons in Hfs.
    apply not_elem_of_cons in Hfs as [Hf Hfs].
    apply Forall_cons in Hd as [Hdf Hd].
    rewrite (type_setattr_plain _ _ _ Hdf).
    apply IH; [|done|done]. unfold mro_lookup in *. simpl.
    rewrite lookup_insert_ne by done.
    by destruct (cls_dict cls !! _).
Qed.

Lemma generated_lookup (sch : Schema SchemaType) r cls key :
  generated sch r cls ->
  cls_dict cls !! key =
    if decide (key = "__module__") then Some (AConst VNone)
    else match bound_field (fields sch) key with
         | Some f => Some (AProperty f)
         | None => cls_dict (SpecificRecordMeta__new__ (fullname sch) r) !! key
         end.
Proof.
  unfold generated, SpecificRecordMeta__init__. intros Hg.
  destruct (bind_properties _ _) as [e|cls0] eqn:Hb; [done|].
  apply type_setattr_inr in Hg. subst cls. unfold namespace_set.
  cbn [cls_dict].
  destruct (decide (key = "__module__")) as [->|Hne].
  - by rewrite lookup_insert_eq.
  - rewrite lookup_insert_ne by done. by apply bind_properties_lookup.
Qed.

(** What [__new__] puts in the namespace. *)
Lemma new_lookup nm r key (a : attr (SchemaType := SchemaType)) :
  cls_dict (SpecificRecordMeta__new__ nm r) !! key = Some a ->
  (key = "_schema" ∧ a = ASchema r) ∨
  (key = "_fields" ∧ a = AMember) ∨
  (key = "__weakref__" ∧ a = AWeakref) ∨
  (∃ v, a = AConst v).
Proof.
  simpl. intros H.
  repeat (apply lookup_insert_Some in H as [[<- <-]|[_ H]]; [eauto 6|]).
  by rewrite lookup_empty in H.
Qed.

Lemma generated_property (sch : Schema SchemaType) r cls key f :
  generated sch r cls ->
  cls_dict cls !! key = Some (AProperty f) ->
  f ∈ fields sch ∧ name f = key.
Proof.
  intros Hg Hk. rewrite (generated_lookup _ _ _ _ Hg) in Hk.
  destruct (decide _); [done|].
  destruct (bound_field _ _) as [g|] eqn:Hbf.
  - inversion Hk; subst g. by apply bound_field_Some.
  - apply new_lookup in Hk as [[_ ?]|[[_ ?]|[[_ ?]|[v ?]]]]; done.
Qed.

Lemma generated_member (sch : Schema SchemaType) r cls key :
  generated sch r cls ->
  cls_dict cls !! key = Some AMember -> key = "_fields".
Proof.
  intros Hg Hk. rewrite (generated_lookup _ _ _ _ Hg) in Hk.
  destruct (decide _); [done|].
  destruct (bound_field _ _) as [g|]; [done|].
  apply new_lookup in Hk as [[_ ?]|[[? _]|[[_ ?]|[v ?]]]]; done.
Qed.

(** In a generated class whose fields have pairwise distinct names, each
    field except one named [__module__] has its accessor bound. *)
Lemma generated_is_field (sch : Schema SchemaType) r cls f :
  generated sch r cls ->
  NoDup (name <$> fields sch) ->
  f ∈ fields sch -> name f ≠ "__module__" ->
  is_field cls f.
Proof.
  intros Hg Hnd Hin Hne. unfold is_field.
  rewrite (generated_lookup _ _ _ _ Hg), decide_False by done.
  by rewrite (bound_field_NoDup _ _ Hnd Hin).
Qed.

(** ** Instantiation *)

Lemma bind_raise_fails {A B} (c : M (SchemaType := SchemaType) A) (e : exn)
    self (b : B) s :
  bind c (fun _ => raise e) self ≠ (inr b, s).
Proof.
  unfold bind, raise. by destruct (c self) as [[e'|a] s'].
Qed.

Lemma new_instance_record cls c self :
  new_instance validate c cls = (inr tt, self) -> record_instance cls self ∅.
Proof.
  unfold new_instance.
  destruct (mro_lookup cls "__new__"); [done|].
  destruct (mro_lookup cls "__init__") as [[a|mth]|] eqn:Hinit.
  - destruct a; try done. intros H. by apply bind_raise_fails in H.
  - unfold mro_lookup in Hinit.
    destruct (cls_dict cls !! "__init__"); [done|].
    assert (mth = m__init__) as -> by (vm_compute in Hinit; congruence).
    destruct (mro_lookup cls "__setattr__") as [[[]|?]|]; try done.
    { intros H. by apply bind_raise_fails in H. }
    unfold SpecificRecordBase__init__, inst_setattr, mro_lookup.
    destruct (cls_dict cls !! "_fields") as [a|] eqn:Hslot; [|done].
    destruct a; try done.
    + unfold setter. destruct (validate _ _); [|done].
      unfold bind, self__fields. rewrite (mro_lookup_own _ _ _ Hslot). done.
    + unfold write_slot. intros [= <-]. by split.
  - unfold mro_lookup in Hinit. by destruct (cls_dict cls !! "__init__").
Qed.

(** ** The factory *)

Lemma generated_get_schema (sch : Schema SchemaType) r cls :
  generated sch r cls ->
  "_schema" ∉ name <$> fields sch ->
  "get_schema" ∉ name <$> fields sch ->
  get_schema cls = inr (OSchema r).
Proof.
  intros Hg Hs Hgs. unfold get_schema, mro_lookup.
  rewrite !(generated_lookup _ _ _ _ Hg).
  apply bound_field_None in Hs, Hgs. rewrite Hs, Hgs. done.
Qed.

(** C9, amended.  For a schema whose field names are pairwise distinct,
    do not begin with two underscores (the names of the interpreter's own
    attributes, some of which [setattr] on a class refuses) and avoid the
    names the class keeps for itself ([clobbering]), [specific_record]
    returns a class at a reference that was free; the store is otherwise as
    before (no schema is written, every class already there is still
    there); [get_schema] on the new class returns the very reference that
    was passed in; and every field of the schema has its accessor pair
    bound. *)
Theorem specific_record_builds (st : Store) r (sch : Schema SchemaType) :
  schemas st !! r = Some sch ->
  NoDup (name <$> fields sch) ->
  Forall (fun f => dunder (name f) = false) (fields sch) ->
  (∀ key, key ∈ clobbering -> key ∉ name <$> fields sch) ->
  ∃ c cls st',
    specific_record r st = (inr c, st') ∧
    classes st !! c = None ∧
    schemas st' = schemas st ∧
    classes st' = <[c := cls]> (classes st) ∧
    (∀ c' cls0, classes st !! c' = Some cls0 -> classes st' !! c' = Some cls0) ∧
    get_schema cls = inr (OSchema r) ∧
    (∀ f, f ∈ fields sch -> is_field cls f).
Proof.
  intros Hr Hnd Hdun Hclob.
  assert ("_schema" ∉ name <$> fields sch) as H1 by (apply Hclob; set_solver).
  assert ("get_schema" ∉ name <$> fields sch) as H2 by (apply Hclob; set_solver).
  assert ("__module__" ∉ name <$> fields sch) as H3 by (apply Hclob; set_solver).
  assert ("_SpecificRecordMeta__wrap_property" ∉ name <$> fields sch) as H4
    by (apply Hclob; set_solver).
  destruct (bind_properties_succeeds (fields sch)
              (SpecificRecordMeta__new__ (fullname sch) r)) as [cls0 Hb];
    [done|done|done|].
  set (cls := namespace_set cls0 "__module__" (AConst VNone)).
  assert (SpecificRecordMeta__init__ sch
            (SpecificRecordMeta__new__ (fullname sch) r) = inr cls) as Hg.
  { unfold SpecificRecordMeta__init__. by rewrite Hb. }
  set (c := fresh (dom (classes st))).
  assert (classes st !! c = None) as Hc.
  { apply not_elem_of_dom. apply is_fresh. }
  exists c, cls, {| schemas := schemas st; classes := <[c := cls]> (classes st) |}.
  split; [|split; [done|split; [done|split; [done|split; [|split]]]]].
  - unfold specific_record. by rewrite Hr, Hg.
  - intros c' cls1 Hc'. simpl. rewrite lookup_insert_ne; [done|].
    intros ->. congruence.
  - by apply (generated_get_schema sch).
  - intros f Hin. apply (generated_is_field sch r); try done.
    intros Heq. apply H3. rewrite <- Heq. by apply list_elem_of_fmap_2.
Qed.


(** Whatever [specific_record] returns is a generated class for the schema
    found at the reference. *)
Lemma specific_record_generated (st st' : Store) r c :
  specific_record r st = (inr c, st') ->
  ∃ (sch : Schema SchemaType) cls,
    schemas st !! r = Some sch ∧ generated sch r cls ∧
    classes st' !! c = Some cls.
Proof.
  unfold specific_record. destruct (schemas st !! r) as [sch|]; [|done].
  destruct (SpecificRecordMeta__init__ sch _) as [e|cls] eqn:Hi; [done|].
  intros [= <- <-]. exists sch, cls. split; [done|]. split; [done|].
  simpl. by rewrite lookup_insert_eq.
Qed.

(** ** Item assignment *)

Lemma setitem_unbound_fails (sch : Schema SchemaType) r cls self key v :
  generated sch r cls ->
  key ∉ name <$> fields sch -> key ≠ "_fields" ->
  ∃ e, SpecificRecordBase__setitem__ validate cls key v self = (inl e, self).
Proof.
  intros Hg Hkey Hslot.
  unfold SpecificRecordBase__setitem__, inst_setattr, mro_lookup.
  destruct (cls_dict cls !! key) as [a|] eqn:Hk.
  - destruct a; try by eexists.
    + apply (generated_property _ _ _ _ _ Hg) in Hk as [Hin <-].
      exfalso. apply Hkey. by apply list_elem_of_fmap_2.
    + by apply (generated_member _ _ _ _ Hg) in Hk.
  - destruct (SpecificRecordBase_dict key) as [[a|mth]|] eqn:Hbase.
    + apply base_dict_data in Hbase as [w ->]. by eexists.
    + by eexists.
    + case_decide; by eexists.
Qed.

(** C6, amended.  On instances of a generated class, [__setitem__(key, v)]
    with [key] the name of a field of the class is the setter of that
    field applied to [v]; with a [key] that is neither the name of a field
    declared by the schema nor [_fields], the name of the slot holding the
    mapping, it fails: an exception is raised and the instance is left as it
    was. *)
Theorem setitem_is_setter_or_fails (sch : Schema SchemaType) r cls self key v :
  generated sch r cls ->
  (∀ f, is_field cls f ->
     SpecificRecordBase__setitem__ validate cls (name f) v self
       = setter validate cls f v self) ∧
  (key ∉ name <$> fields sch -> key ≠ "_fields" ->
     ∃ e, SpecificRecordBase__setitem__ validate cls key v self = (inl e, self)).
Proof.
  intros Hg. split.
  - intros f Hf. unfold SpecificRecordBase__setitem__.
    by rewrite (inst_setattr_field _ _ _ Hf).
  - intros Hkey Hslot. by apply (setitem_unbound_fails sch r).
Qed.

(** ** Sequences of operations *)

Lemma run_snoc cls ops (o : op) self :
  run validate cls (ops ++ [o]) self
    = exec validate cls o (run validate cls ops self).
Proof. unfold run. by rewrite foldl_snoc. Qed.

(** One operation other than an assignment to [_fields] either leaves the
    instance alone or stores a validated value under a declared name. *)
Lemma exec_step (sch : Schema SchemaType) r cls self m (o : op) :
  generated sch r cls ->
  record_instance cls self m ->
  (∀ v, o ≠ Set_ "_fields" v) ->
  exec validate cls o self = self ∨
  ∃ f v, o = Set_ (name f) v ∧ f ∈ fields sch ∧
         validate (type f) v = true ∧
         exec validate cls o self = stored self (name f) v m.
Proof.
  intros Hg Hri Hslot. destruct o as [key|key v|]; simpl.
  - left. by rewrite (getitem_record _ _ _ _ Hri).
  - unfold SpecificRecordBase__setitem__, inst_setattr, mro_lookup.
    destruct (cls_dict cls !! key) as [a|] eqn:Hk.
    + destruct a as [f| | | |]; try by left.
      * apply (generated_property _ _ _ _ _ Hg) in Hk as [Hin <-].
        destruct (validate (type f) v) eqn:Hv.
        -- right. exists f, v. by rewrite (setter_accept _ _ _ _ _ Hri Hv).
        -- left. by rewrite (setter_reject _ _ _ _ Hv).
      * apply (generated_member _ _ _ _ Hg) in Hk. subst key.
        by destruct (Hslot v).
    + left. destruct (SpecificRecordBase_dict key) as [[a|mth]|] eqn:Hbase.
      * by apply base_dict_data in Hbase as [w ->].
      * done.
      * by case_decide.
  - left. by rewrite (keys_record _ _ _ Hri).
Qed.

(** C5, amended.  Take an instance of a generated class and run on it,
    from construction, any sequence of [__getitem__], [__setitem__] and
    [keys] calls none of which assigns to the key [_fields].  The slot then
    holds a mapping, and every entry (key, v) of it has a declared field of
    that name whose type validates [v], and was put there by a
    [__setitem__(key, v)] of the sequence: a field never written has no
    entry. *)
Theorem mapping_invariant (sch : Schema SchemaType) r cls c self0 (ops : list op) :
  generated sch r cls ->
  new_instance validate c cls = (inr tt, self0) ->
  (∀ v, Set_ "_fields" v ∉ ops) ->
  ∃ m, record_instance cls (run validate cls ops self0) m ∧
    ∀ key v, m !! key = Some v ->
      (∃ f, f ∈ fields sch ∧ name f = key ∧ validate (type f) v = true) ∧
      Set_ key v ∈ ops.
Proof.
  intros Hg Hnew. induction ops as [|o ops IH] using rev_ind; intros Hops.
  - exists ∅. split; [by apply (new_instance_record _ c)|].
    intros key v Hk. by rewrite lookup_empty in Hk.
  - destruct IH as (m & Hri & Hm).
    { intros v Hin. apply (Hops v). apply elem_of_app. by left. }
    rewrite run_snoc.
    destruct (exec_step sch r cls _ m o Hg Hri) as [Hsame|(f & v & -> & Hin & Hv & Hex)].
    { intros v ->. apply (Hops v). apply elem_of_app. right. left. }
    + rewrite Hsame. exists m. split; [done|].
      intros key v Hk. destruct (Hm key v Hk) as [Hf Hw].
      split; [done|]. apply elem_of_app. by left.
    + rewrite Hex. exists (<[name f := v]> m).
      split; [by apply stored_record|].
      intros key w Hk. apply lookup_insert_Some in Hk as [[<- <-]|[Hne Hk]].
      * split; [by exists f|]. apply elem_of_app. right. left.
      * destruct (Hm key w Hk) as [Hf Hw].
        split; [done|]. apply elem_of_app. by left.
Qed.




End Properties.

(** * The module's own example, and the corner cases *)


(** C2 on [instance.f1 = 'bad']. *)
Lemma set_invalid_raises_unchanged_witness :
  inst_setattr prim_validate FooRecord "f1" (VStr "bad") foo_written
    = (inl (AvroTypeException p_int (VStr "bad")), foo_written).
Proof.
  apply (set_invalid_raises_unchanged prim_validate FooRecord foo_written f1
           (VStr "bad")).
  - vm_compute; reflexivity.
  - vm_compute; reflexivity.
Defined.

(** C3, on the code.  [FooRecord.validate(instance)] on a fresh instance:
    the first field, [f1], is unwritten and [None] is no int, so the claim
    expects [AvroTypeException(int, None)]; the call ends instead in an
    AttributeError, because instances have no attribute [get]. *)
Theorem validate_fresh_instance_AttributeError :
  SpecificRecordBase_validate prim_validate test_store FooRecord
      (ARecord FooRecord foo_instance)
    = inl (AttributeError "get").
Proof. vm_compute. reflexivity. Qed.

(** C4, on the code.  Two fresh instances of [FooRecord] have the same class
    and equal (empty) mappings, so the claim expects [True]; [__eq__] raises
    an AttributeError instead, and for an instance of another class it raises
    a NameError where the claim expects [False]. *)
Theorem eq_fresh_instances_raises :
  fst (SpecificRecordBase__eq__ FooRecord foo_instance foo_instance)
    = inl (AttributeError "eq") ∧
  fst (SpecificRecordBase__eq__ FooRecord
         {| inst_class := 1; _fields := Some (VDict ∅) |} foo_instance)
    = inl (NameError "false").
Proof. split; vm_compute; reflexivity. Qed.

(** C5, as stated, fails: one [__setitem__] on the key [_fields] replaces
    the mapping, here by one with an entry for [bogus], which is no field of
    the schema. *)
Lemma setitem_slot_breaks_invariant :
  ∃ m,
    _fields (run prim_validate FooRecord
               [Set_ "_fields" (VDict {[ "bogus" := VStr "x" ]})] foo_instance)
      = Some (VDict m) ∧
    m !! "bogus" = Some (VStr "x") ∧
    "bogus" ∉ name <$> fields TEST_SCHEMA.
Proof.
  exists {[ "bogus" := VStr "x" ]}. split; [vm_compute; reflexivity|].
  split; [vm_compute; reflexivity|].
  simpl. rewrite !elem_of_cons, elem_of_nil. intros [H|[H|[]]]; discriminate H.
Qed.

(** C5, amended, on the main's two assignments followed by reads. *)
Lemma mapping_invariant_witness :
  ∃ m,
    record_instance FooRecord
      (run prim_validate FooRecord
         [Set_ "f1" (VInt 1); Set_ "f1" (VStr "bad"); Get "f1"; Keys]
         foo_instance) m ∧
    ∀ key v, m !! key = Some v ->
      (∃ f, f ∈ fields TEST_SCHEMA ∧ name f = key ∧
            prim_validate (type f) v = true) ∧
      Set_ key v ∈ [Set_ "f1" (VInt 1); Set_ "f1" (VStr "bad"); Get "f1"; Keys].
Proof.
  apply (mapping_invariant prim_validate TEST_SCHEMA 0 FooRecord 0 foo_instance).
  - vm_compute; reflexivity.
  - vm_compute; reflexivity.
  - intros v. rewrite !elem_of_cons, elem_of_nil.
    intros [H|[H|[H|[H|[]]]]]; discriminate H.
Defined.

(** C6, as stated, fails: [_fields] is not a field of the schema, yet
    [instance['_fields'] = 5] succeeds, and puts 5 in place of the mapping. *)
Lemma setitem_slot_succeeds :
  ("_fields" ∉ name <$> fields TEST_SCHEMA) ∧
  SpecificRecordBase__setitem__ prim_validate FooRecord "_fields" (VInt 5)
      foo_instance
    = (inr tt, {| inst_class := 0; _fields := Some (VInt 5) |}).
Proof.
  split; [|vm_compute; reflexivity].
  simpl. rewrite !elem_of_cons, elem_of_nil. intros [H|[H|[]]]; discriminate H.
Qed.

(** C6, amended, on [FooRecord] and the key [f3]. *)
Lemma setitem_is_setter_or_fails_witness :
  (∀ f, is_field FooRecord f ->
     SpecificRecordBase__setitem__ prim_validate FooRecord (name f) (VInt 1)
         foo_instance
       = setter prim_validate FooRecord f (VInt 1) foo_instance) ∧
  ("f3" ∉ name <$> fields TEST_SCHEMA -> "f3" ≠ "_fields" ->
     ∃ e, SpecificRecordBase__setitem__ prim_validate FooRecord "f3" (VInt 1)
            foo_instance
          = (inl e, foo_instance)).
Proof.
  apply (setitem_is_setter_or_fails prim_validate TEST_SCHEMA 0 FooRecord
           foo_instance "f3" (VInt 1)).
  vm_compute; reflexivity.
Defined.



(** C9, as stated, fails: for a schema with a field called [_schema] the
    class is built, but the field's property has taken the place of the
    schema, and [get_schema] returns that property. *)
Lemma field_named__schema_hides_schema :
  ∃ c st' cls,
    specific_record 0 shadow_store = (inr c, st') ∧
    classes st' !! c = Some cls ∧
    get_schema cls ≠ inr (OSchema 0).
Proof.
  eexists _, _, _. split; [vm_compute; reflexivity|].
  split; [vm_compute; reflexivity|].
  vm_compute. discriminate.
Qed.

(** With a name declared twice the later accessor is the one bound: the
    int field [f1] of DUP_SCHEMA is not a field of the class, and 1 is
    refused under its name. *)
Lemma duplicate_name_later_accessor :
  f1 ∈ fields DUP_SCHEMA ∧ ¬ is_field DupRecord f1 ∧
  fst (inst_setattr prim_validate DupRecord "f1" (VInt 1)
         (snd (new_instance prim_validate 0 DupRecord)))
    = inl (AvroTypeException p_string (VInt 1)).
Proof.
  split; [left|]. split; [|vm_compute; reflexivity].
  unfold is_field. vm_compute. intros [=].
Qed.

(** A field named [__dict__] cannot be bound: [setattr] on the class
    raises, and no class is built. *)
Lemma field_named__dict__build_raises :
  specific_record 0 dict_store = (inl (AttributeError "__dict__"), dict_store).
Proof. vm_compute. reflexivity. Qed.

(** A field named [__new__] or [__setattr__] is bound, but the class can
    then not be instantiated. *)
Lemma field_named__new__blocks_instantiation :
  generated NEW_SCHEMA 0 NewRecord ∧
  fst (new_instance prim_validate 0 NewRecord) = inl TypeError ∧
  generated SETATTR_SCHEMA 0 SetattrRecord ∧
  fst (new_instance prim_validate 0 SetattrRecord)
    = inl (AttributeError "_fields").
Proof. repeat split; vm_compute; reflexivity. Qed.

(** [instance['__class__'] = v] is refused by the setter of [__class__]. *)
Lemma setitem__class__TypeError :
  SpecificRecordBase__setitem__ prim_validate FooRecord "__class__" (VInt 5)
      foo_instance
    = (inl TypeError, foo_instance).
Proof. vm_compute. reflexivity. Qed.

(** C9, amended, on TEST_SCHEMA. *)
Lemma specific_record_builds_witness :
  ∃ c cls st',
    specific_record 0 test_store = (inr c, st') ∧
    classes test_store !! c = None ∧
    schemas st' = schemas test_store ∧
    classes st' = <[c := cls]> (classes test_store) ∧
    (∀ c' cls0, classes test_store !! c' = Some cls0 ->
                classes st' !! c' = Some cls0) ∧
    get_schema cls = inr (OSchema 0) ∧
    (∀ f, f ∈ fields TEST_SCHEMA -> is_field cls f).
Proof.
  apply (specific_record_builds test_store 0 TEST_SCHEMA).
  - vm_compute; reflexivity.
  - simpl. repeat constructor; rewrite ?elem_of_cons, ?elem_of_nil;
      intuition discriminate.
  - repeat constructor.
  - intros key. unfold clobbering. simpl.
    rewrite !elem_of_cons, !elem_of_nil.
    intros [->|[->|[->|[->|[]]]]] [H|[H|[]]]; discriminate H.
Defined.



(** * Further properties of the module *)

Section Further.

Context {SchemaType : Type}.
Variable validate : SchemaType -> value -> bool.

Implicit Types (cls : RecordType (SchemaType := SchemaType)).
Implicit Types (f g : Field SchemaType) (v : value) (self : Instance).
Implicit Types (m : gmap string value) (key : string).

(** ** Reads and failed writes *)

Lemma self__fields_pure cls self : snd (self__fields cls self) = self.
Proof.
  unfold self__fields.
  destruct (mro_lookup cls "_fields") as [[[]|]|]; simpl; try done.
  unfold read_slot. by destruct (_fields self).
Qed.

Lemma getter_pure cls f self : snd (getter cls f self) = self.
Proof.
  unfold getter, bind. pose proof (self__fields_pure cls self) as H.
  destruct (self__fields cls self) as [[e|o] s]; simpl in *; by subst.
Qed.

Lemma inst_getattr_pure cls key self : snd (inst_getattr cls key self) = self.
Proof.
  unfold inst_getattr.
  destruct (mro_lookup cls key) as [[[f| | | |]|mth]|]; simpl; try done.
  - unfold bind. pose proof (getter_pure cls f self) as H.
    destruct (getter cls f self) as [[e|o] s]; simpl in *; by subst.
  - unfold read_slot. by destruct (_fields self).
Qed.

(** X1.  Reading never writes: the getter of a field, attribute access,
    [__getitem__] and [keys()] return the instance exactly as they found it,
    whether they return a value or raise, and whatever the slot holds. *)
Theorem reads_leave_instance cls self f key :
  snd (getter cls f self) = self ∧
  snd (inst_getattr cls key self) = self ∧
  snd (SpecificRecordBase__getitem__ cls key self) = self ∧
  snd (SpecificRecordBase_keys cls self) = self.
Proof.
  split; [apply getter_pure|]. split; [apply inst_getattr_pure|].
  pose proof (self__fields_pure cls self) as H.
  unfold SpecificRecordBase__getitem__, SpecificRecordBase_keys, bind.
  destruct (self__fields cls self) as [[e|o] s]; simpl in *; by subst.
Qed.

(** X2.  A [__setitem__] that raises has changed nothing: for any key, any value
    and any state of the instance, the instance after the exception is the
    instance before the call. *)
Theorem failed_setitem_leaves_instance cls self key v (e : exn) :
  fst (SpecificRecordBase__setitem__ validate cls key v self) = inl e ->
  snd (SpecificRecordBase__setitem__ validate cls key v self) = self.
Proof.
  unfold SpecificRecordBase__setitem__, inst_setattr.
  destruct (mro_lookup cls key) as [[[f| | | |]|mth]|]; try done.
  - unfold setter. destruct (validate _ _); [|done].
    unfold bind. pose proof (self__fields_pure cls self) as H.
    destruct (self__fields cls self) as [[e'|o] s]; simpl in H; subst s;
      [done|].
    unfold obj_setitem. by destruct o as [[]| | |].
  - by case_decide.
Qed.

(** ** Writes through the accessors *)






(** ** The namespace of a generated class *)

Lemma bound_field_declared (fs : list (Field SchemaType)) key :
  key ∈ name <$> fs -> ∃ f, bound_field fs key = Some f.
Proof.
  intros Hin. destruct (bound_field fs key) as [f|] eqn:Hb; [by exists f|].
  by apply bound_field_None in Hb.
Qed.

(** X6.  Of several fields declared under one name, the class binds the accessor
    of the last; a field named as a method of [SpecificRecordBase] takes
    that method's place in the lookup.  Only [__module__] is exempt. *)
Theorem generated_binds_last_declared (sch : Schema SchemaType) r cls key :
  generated sch r cls ->
  key ∈ name <$> fields sch ->
  key ≠ "__module__" ->
  ∃ f, bound_field (fields sch) key = Some f ∧
       f ∈ fields sch ∧ name f = key ∧
       mro_lookup cls key = Some (inl (AProperty f)).
Proof.
  intros Hg Hin Hne. destruct (bound_field_declared _ _ Hin) as [f Hb].
  exists f. split; [done|].
  destruct (bound_field_Some _ _ _ Hb) as [Hf Hn]. split; [done|]. split; [done|].
  apply mro_lookup_own.
  by rewrite (generated_lookup _ _ _ _ Hg), decide_False, Hb.
Qed.


(** ** Instantiation of a generated class *)

Lemma dunder_not_declared (fs : list (Field SchemaType)) key :
  Forall (fun f => dunder (name f) = false) fs ->
  dunder key = true -> key ∉ name <$> fs.
Proof.
  intros Hfs Hd (f & -> & Hin)%list_elem_of_fmap.
  rewrite Forall_forall in Hfs. specialize (Hfs f Hin). congruence.
Qed.

(** X8.  A generated class whose schema declares no field beginning with two
    underscores can be instantiated exactly when no field is named
    [_fields]; the new instance then has the empty mapping.  With a field
    named [_fields] the constructor raises. *)
Theorem new_instance_iff (sch : Schema SchemaType) r cls c :
  generated sch r cls ->
  Forall (fun f => dunder (name f) = false) (fields sch) ->
  (fst (new_instance validate c cls) = inr tt <->
   "_fields" ∉ name <$> fields sch) ∧
  (fst (new_instance validate c cls) = inr tt ->
   snd (new_instance validate c cls)
     = {| inst_class := c; _fields := Some (VDict ∅) |}).
Proof.
  intros Hg Hd.
  assert (∀ key, dunder key = true -> key ≠ "__module__" ->
            cls_dict cls !! key
              = cls_dict (SpecificRecordMeta__new__ (fullname sch) r) !! key)
    as Hplain.
  { intros key Hk Hne. pose proof (dunder_not_declared _ _ Hd Hk) as Hnot.
    apply bound_field_None in Hnot.
    by rewrite (generated_lookup _ _ _ _ Hg), decide_False, Hnot. }
  assert (new_instance validate c cls
            = SpecificRecordBase__init__ validate cls
                {| inst_class := c; _fields := None |}) as Hnew.
  { unfold new_instance, mro_lookup. by rewrite !Hplain. }
  rewrite Hnew.
  assert ("_fields" ∉ name <$> fields sch ->
          SpecificRecordBase__init__ validate cls
              {| inst_class := c; _fields := None |}
            = (inr tt, {| inst_class := c; _fields := Some (VDict ∅) |})) as Hok.
  { intros Hs. apply bound_field_None in Hs.
    unfold SpecificRecordBase__init__, inst_setattr, mro_lookup.
    by rewrite (generated_lookup _ _ _ "_fields" Hg), decide_False, Hs. }
  assert (fst (SpecificRecordBase__init__ validate cls
                 {| inst_class := c; _fields := None |}) = inr tt ->
          "_fields" ∉ name <$> fields sch) as Hconv.
  { intros Hfst Hin. destruct (bound_field_declared _ _ Hin) as [f Hb].
    revert Hfst.
    unfold SpecificRecordBase__init__, inst_setattr, mro_lookup.
    rewrite (generated_lookup _ _ _ "_fields" Hg), decide_False, Hb by done.
    unfold setter. destruct (validate _ _); [|done].
    unfold bind, self__fields, mro_lookup.
    by rewrite (generated_lookup _ _ _ "_fields" Hg), decide_False, Hb. }
  split; [split; [done|]|].
  - intros H. by rewrite (Hok H).
  - intros H. by rewrite (Hok (Hconv H)).
Qed.

(** ** The factory, again *)

(** X9.  No class is shared or replaced: a second call on the same schema returns
    another reference, the class built first is still in the store, and the
    two classes have the same content. *)
Theorem specific_record_twice (st st1 : Store (SchemaType := SchemaType)) r c1 :
  specific_record r st = (inr c1, st1) ->
  ∃ c2 st2 cls,
    specific_record r st1 = (inr c2, st2) ∧
    c2 ≠ c1 ∧
    classes st2 !! c1 = Some cls ∧
    classes st2 !! c2 = Some cls.
Proof.
  unfold specific_record.
  destruct (schemas st !! r) as [sch|] eqn:Hr; [|done].
  destruct (SpecificRecordMeta__init__ sch _) as [e|cls] eqn:Hi; [done|].
  intros [= <- <-]. simpl. rewrite Hr, Hi.
  set (cs := <[fresh (dom (classes st)) := cls]> (classes st)).
  assert (fresh (dom cs) ≠ fresh (dom (classes st))) as Hne.
  { intros Heq. apply (is_fresh (dom cs)). rewrite Heq.
    unfold cs. rewrite dom_insert_L. set_solver. }
  eexists _, _, cls. split; [done|]. split; [done|]. simpl. split.
  - rewrite lookup_insert_ne by done. unfold cs. by rewrite lookup_insert_eq.
  - by rewrite lookup_insert_eq.
Qed.

Lemma bind_properties_wrap_hidden (pre post : list (Field SchemaType)) g h cls :
  Forall (fun p => dunder (name p) = false) pre ->
  name g = "_SpecificRecordMeta__wrap_property" ->
  bind_properties (pre ++ g :: h :: post) cls = inl TypeError.
Proof.
  intros Hpre Hg. revert cls.
  induction Hpre as [|p pre Hp _ IH]; intros cls; simpl.
  - destruct (mro_lookup cls _); [done|].
    rewrite type_setattr_plain by (by rewrite Hg).
    unfold mro_lookup, namespace_set. cbn [cls_dict].
    by rewrite Hg, lookup_insert_eq.
  - destruct (mro_lookup cls _); [done|].
    rewrite (type_setattr_plain _ _ _ Hp). apply IH.
Qed.

(** X10.  How the factory fails.  When a field that is not the last is named
    [_SpecificRecordMeta__wrap_property], and no field declared before it
    begins with two underscores, binding the next accessor raises
    TypeError; and whenever the factory raises, for whatever reason, the
    store is left as it was. *)
Theorem specific_record_failure (st st' : Store) r (sch : Schema SchemaType) :
  schemas st !! r = Some sch ->
  (∀ pre g h post,
     fields sch = pre ++ g :: h :: post ->
     Forall (fun p => dunder (name p) = false) pre ->
     name g = "_SpecificRecordMeta__wrap_property" ->
     specific_record r st = (inl TypeError, st)) ∧
  (∀ e, specific_record r st = (inl e, st') -> st' = st).
Proof.
  intros Hr. unfold specific_record, SpecificRecordMeta__init__. rewrite Hr.
  split.
  - intros pre g h post Hfs Hpre Hg. rewrite Hfs.
    by rewrite (bind_properties_wrap_hidden pre post g h _ Hpre Hg).
  - intros e. destruct (bind_properties _ _) as [e'|cls]; [by intros [= _ <-]|].
    destruct (type_setattr cls _ _); [by intros [= _ <-]|done].
Qed.

(** ** Bulk validation of a dict *)

Lemma generated_validate_loop (st : Store) (sch : Schema SchemaType) r cls
    (instance : argument) :
  generated sch r cls ->
  schemas st !! r = Some sch ->
  "_schema" ∉ name <$> fields sch ->
  "get_schema" ∉ name <$> fields sch ->
  SpecificRecordBase_validate validate st cls instance
    = validate_loop validate (fields sch) instance.
Proof.
  intros Hg Hr Hs Hgs. unfold SpecificRecordBase_validate.
  rewrite (generated_get_schema sch r cls Hg Hs Hgs). simpl. by rewrite Hr.
Qed.

Lemma validate_loop_dict_ok (fs : list (Field SchemaType)) m :
  validate_loop validate fs (ADatum (VDict m)) = inr tt ->
  Forall (fun g => validate (type g) (default VNone (m !! name g)) = true) fs.
Proof.
  induction fs as [|g fs IH]; simpl; [by constructor|].
  destruct (validate (type g) _) eqn:Hg; [|done].
  intros H. constructor; [done|by apply IH].
Qed.

(** X11.  Handed a dict, [validate] checks the schema's fields in declaration
    order, a missing key counting as [None], and raises for the first field
    whose value is rejected, with that field's type and that value; fields
    declared after it play no part. *)
Theorem validate_dict_first_invalid (st : Store) (sch : Schema SchemaType) r cls
    m (pre post : list (Field SchemaType)) f :
  generated sch r cls ->
  schemas st !! r = Some sch ->
  "_schema" ∉ name <$> fields sch ->
  "get_schema" ∉ name <$> fields sch ->
  fields sch = pre ++ f :: post ->
  Forall (fun g => validate (type g) (default VNone (m !! name g)) = true) pre ->
  validate (type f) (default VNone (m !! name f)) = false ->
  SpecificRecordBase_validate validate st cls (ADatum (VDict m))
    = inl (AvroTypeException (type f) (default VNone (m !! name f))).
Proof.
  intros Hg Hr Hs Hgs Hfs Hpre Hf.
  rewrite (generated_validate_loop st sch r cls _ Hg Hr Hs Hgs), Hfs.
  by apply validate_loop_dict_first_invalid.
Qed.

(** X12.  Handed a dict, [validate] returns normally exactly when every field of
    the schema accepts the dict's value for it ([None] when the key is
    missing); keys of the dict that are no fields are ignored. *)
Theorem validate_dict_accepts_iff (st : Store) (sch : Schema SchemaType) r cls m :
  generated sch r cls ->
  schemas st !! r = Some sch ->
  "_schema" ∉ name <$> fields sch ->
  "get_schema" ∉ name <$> fields sch ->
  SpecificRecordBase_validate validate st cls (ADatum (VDict m)) = inr tt <->
  Forall (fun g => validate (type g) (default VNone (m !! name g)) = true)
    (fields sch).
Proof.
  intros Hg Hr Hs Hgs.
  rewrite (generated_validate_loop st sch r cls _ Hg Hr Hs Hgs). split.
  - apply validate_loop_dict_ok.
  - apply validate_loop_dict_all_valid.
Qed.

(** X13.  For a schema without fields [validate] accepts anything, a record
    included: the loop body, and with it the call of [get], is never
    reached. *)
Theorem validate_no_fields (st : Store) (sch : Schema SchemaType) r cls
    (instance : argument) :
  generated sch r cls ->
  schemas st !! r = Some sch ->
  fields sch = [] ->
  SpecificRecordBase_validate validate st cls instance = inr tt.
Proof.
  intros Hg Hr Hfs.
  rewrite (generated_validate_loop st sch r cls _ Hg Hr); rewrite Hfs;
    [done|apply not_elem_of_nil|apply not_elem_of_nil].
Qed.

(** ** Inequality *)


End Further.

(** * The further properties on the examples *)

Lemma failed_setitem_leaves_instance_witness :
  snd (SpecificRecordBase__setitem__ prim_validate FooRecord "f1" (VStr "bad")
         foo_written)
    = foo_written.
Proof.
  apply (failed_setitem_leaves_instance prim_validate FooRecord foo_written
           "f1" (VStr "bad") (AvroTypeException p_int (VStr "bad"))).
  vm_compute; reflexivity.
Defined.




Lemma generated_binds_last_declared_witness :
  ∃ f, bound_field (fields DUP_SCHEMA) "f1" = Some f ∧
       f ∈ fields DUP_SCHEMA ∧ name f = "f1" ∧
       mro_lookup DupRecord "f1" = Some (inl (AProperty f)).
Proof.
  apply (generated_binds_last_declared DUP_SCHEMA 0 DupRecord "f1").
  - vm_compute; reflexivity.
  - left.
  - discriminate.
Defined.


Lemma new_instance_iff_witness :
  (fst (new_instance prim_validate 0 FooRecord) = inr tt <->
   "_fields" ∉ name <$> fields TEST_SCHEMA) ∧
  (fst (new_instance prim_validate 0 FooRecord) = inr tt ->
   snd (new_instance prim_validate 0 FooRecord)
     = {| inst_class := 0; _fields := Some (VDict ∅) |}).
Proof.
  apply (new_instance_iff prim_validate TEST_SCHEMA 0 FooRecord 0).
  - vm_compute; reflexivity.
  - repeat constructor.
Defined.

Lemma specific_record_twice_witness :
  ∃ c2 st2 cls,
    specific_record 0 (snd (specific_record 0 test_store)) = (inr c2, st2) ∧
    c2 ≠ 0 ∧
    classes st2 !! 0 = Some cls ∧
    classes st2 !! c2 = Some cls.
Proof.
  apply (specific_record_twice test_store (snd (specific_record 0 test_store)) 0 0).
  vm_compute; reflexivity.
Defined.

Lemma specific_record_failure_witness :
  (∀ pre g h post,
     fields WRAP_SCHEMA = pre ++ g :: h :: post ->
     Forall (fun p => dunder (name p) = false) pre ->
     name g = "_SpecificRecordMeta__wrap_property" ->
     specific_record 0 wrap_store = (inl TypeError, wrap_store)) ∧
  (∀ e, specific_record 0 wrap_store = (inl e, wrap_store) ->
        wrap_store = wrap_store).
Proof.
  apply (specific_record_failure wrap_store wrap_store 0 WRAP_SCHEMA).
  vm_compute; reflexivity.
Defined.

Lemma validate_dict_first_invalid_witness :
  SpecificRecordBase_validate prim_validate test_store FooRecord
      (ADatum (VDict {[ "f1" := VInt 1 ]}))
    = inl (AvroTypeException p_long VNone).
Proof.
  refine (validate_dict_first_invalid prim_validate test_store TEST_SCHEMA 0
            FooRecord {[ "f1" := VInt 1 ]} [f1] [] f2 _ _ _ _ _ _ _).
  - vm_compute; reflexivity.
  - vm_compute; reflexivity.
  - simpl. rewrite !elem_of_cons, elem_of_nil. intros [H|[H|[]]]; discriminate H.
  - simpl. rewrite !elem_of_cons, elem_of_nil. intros [H|[H|[]]]; discriminate H.
  - reflexivity.
  - repeat constructor.
  - vm_compute; reflexivity.
Defined.

Lemma validate_dict_accepts_iff_witness :
  SpecificRecordBase_validate prim_validate test_store FooRecord
      (ADatum (VDict {[ "f1" := VInt 1; "f2" := VInt 2; "x" := VNone ]}))
    = inr tt <->
  Forall (fun g => prim_validate (type g)
            (default VNone
               (({[ "f1" := VInt 1; "f2" := VInt 2; "x" := VNone ]}
                   : gmap string value) !! name g)) = true)
    (fields TEST_SCHEMA).
Proof.
  apply (validate_dict_accepts_iff prim_validate test_store TEST_SCHEMA 0
           FooRecord).
  - vm_compute; reflexivity.
  - vm_compute; reflexivity.
  - simpl. rewrite !elem_of_cons, elem_of_nil. intros [H|[H|[]]]; discriminate H.
  - simpl. rewrite !elem_of_cons, elem_of_nil. intros [H|[H|[]]]; discriminate H.
Defined.

Lemma validate_no_fields_witness :
  SpecificRecordBase_validate prim_validate empty_store EmptyRecord
      (ARecord EmptyRecord foo_instance)
    = inr tt.
Proof.
  apply (validate_no_fields prim_validate empty_store EMPTY_SCHEMA 0 EmptyRecord).
  - vm_compute; reflexivity.
  - vm_compute; reflexivity.
  - reflexivity.
Defined.


